(** * The module descriptor of the iaf_cond_ampa_gaba_nmda_deco2014 NEST extension

    Source: [iaf_cond_ampa_gaba_nmda_deco2014module.h].  The header holds an
    include guard, two includes of host (NEST) headers and one class
    declaration; the member functions are declared, not defined.

    The development has three parts:
    - [Cxx]: the declarations of the header, written down as data, with the
      C++ rules the statements need (default access of a class, access
      labels, implicitly declared members, members taken over from a
      public base);
    - [Cpp]: the preprocessor lines of the header and their effect on a
      translation unit;
    - [Runtime]: objects of the class and their operations, over a host
      (dynamic loader and network kernel) that is a parameter. *)

From stdpp Require Import base strings list gmap.

Local Open Scope string_scope.
Local Open Scope list_scope.

(** ** Declarations *)

Module Cxx.

Inductive access := Public | Protected | Private.

Inductive class_key := KClass | KStruct.

(** The types that occur in the header, and references, which copy
    operations take. *)
Inductive type :=
| TVoid
| TNamed (n : string)
| TPtr (t : type)
| TRef (t : type)
| TConst (t : type).

Inductive fun_kind := Constructor | Destructor | Method.

(** A member function declaration: [fd_ret] is [None] for constructors and
    destructors, [fd_const] is the trailing [const] qualifier. *)
Record fun_decl := {
  fd_kind : fun_kind;
  fd_ret : option type;
  fd_name : string;
  fd_params : list type;
  fd_const : bool
}.

(** What can stand in a class body. *)
Inductive member :=
| MAccess (a : access)
| MFunction (f : fun_decl)
| MData (t : type) (n : string)
| MClass (n : string).

Record class_decl := {
  cd_key : class_key;
  cd_name : string;
  cd_bases : list (access * string);
  cd_body : list member
}.

#[global] Instance access_eq_dec : EqDecision access.
Proof. solve_decision. Defined.
#[global] Instance class_key_eq_dec : EqDecision class_key.
Proof. solve_decision. Defined.
#[global] Instance type_eq_dec : EqDecision type.
Proof. solve_decision. Defined.
#[global] Instance fun_kind_eq_dec : EqDecision fun_kind.
Proof. solve_decision. Defined.
#[global] Instance fun_decl_eq_dec : EqDecision fun_decl.
Proof. solve_decision. Defined.
#[global] Instance member_eq_dec : EqDecision member.
Proof. solve_decision. Defined.

(** Members of a [class] are private until an access label says
    otherwise, members of a [struct] public. *)
Definition default_access (k : class_key) : access :=
  match k with KClass => Private | KStruct => Public end.

(** Walk a class body, giving every member the access of the last label
    before it. Labels themselves are dropped. *)
Fixpoint with_access (cur : access) (body : list member)
  : list (access * member) :=
  match body with
  | [] => []
  | MAccess a :: rest => with_access a rest
  | m :: rest => (cur, m) :: with_access cur rest
  end.

Definition members (c : class_decl) : list (access * member) :=
  with_access (default_access (cd_key c)) (cd_body c).

Definition is_public (am : access * member) : bool :=
  bool_decide (am.1 = Public).

(** The public members written in the class body. This is not yet the
    public interface of the class: see [public_interface] below. *)
Definition declared_public_members (c : class_decl) : list member :=
  snd <$> filter (λ am, is_public am = true) (members c).

Definition as_function (m : member) : option fun_decl :=
  match m with MFunction f => Some f | _ => None end.

Definition as_data (m : member) : option (type * string) :=
  match m with MData t n => Some (t, n) | _ => None end.

Definition as_class (m : member) : option string :=
  match m with MClass n => Some n | _ => None end.

(** All member functions, data members and nested classes of a class,
    whatever their access. *)
Definition member_functions (c : class_decl) : list fun_decl :=
  omap (λ am, as_function am.2) (members c).

Definition data_members (c : class_decl) : list (type * string) :=
  omap (λ am, as_data am.2) (members c).

Definition nested_classes (c : class_decl) : list string :=
  omap (λ am, as_class am.2) (members c).

Definition declared_public_functions (c : class_decl) : list fun_decl :=
  omap as_function (declared_public_members c).

Fixpoint strip_const (t : type) : type :=
  match t with
  | TConst t' => strip_const t'
  | _ => t
  end.

(** A return type through which a call could report failure to its
    caller: a pointer, which may be null, or a value of any type other than
    [std::string], which may be a status code. Constructors, destructors and
    [void] functions return nothing. *)
Definition reports_failure (f : fun_decl) : bool :=
  match strip_const <$> fd_ret f with
  | None | Some TVoid => false
  | Some (TNamed n) => negb (bool_decide (n = "std::string"))
  | Some _ => true
  end.

(** *** The class of the header *)

Definition ctor_decl : fun_decl :=
  {| fd_kind := Constructor; fd_ret := None;
     fd_name := "iaf_cond_ampa_gaba_nmda_deco2014module";
     fd_params := []; fd_const := false |}.

Definition dtor_decl : fun_decl :=
  {| fd_kind := Destructor; fd_ret := None;
     fd_name := "~iaf_cond_ampa_gaba_nmda_deco2014module";
     fd_params := []; fd_const := false |}.

Definition init_decl : fun_decl :=
  {| fd_kind := Method; fd_ret := Some TVoid;
     fd_name := "init";
     fd_params := [TPtr (TNamed "SLIInterpreter")]; fd_const := false |}.

Definition name_decl : fun_decl :=
  {| fd_kind := Method; fd_ret := Some (TConst (TNamed "std::string"));
     fd_name := "name";
     fd_params := []; fd_const := true |}.

Definition commandstring_decl : fun_decl :=
  {| fd_kind := Method; fd_ret := Some (TConst (TNamed "std::string"));
     fd_name := "commandstring";
     fd_params := []; fd_const := true |}.

(** [class iaf_cond_ampa_gaba_nmda_deco2014module : public SLIModule],
    with its two [public:] labels; nothing follows the second one. *)
Definition iaf_cond_ampa_gaba_nmda_deco2014module : class_decl :=
  {| cd_key := KClass;
     cd_name := "iaf_cond_ampa_gaba_nmda_deco2014module";
     cd_bases := [(Public, "SLIModule")];
     cd_body :=
       [ MAccess Public;
         MFunction ctor_decl;
         MFunction dtor_decl;
         MFunction init_decl;
         MFunction name_decl;
         MFunction commandstring_decl;
         MAccess Public ] |}.

(** *** The public interface of a class

    Besides the public members written in its body, a class has the members
    the compiler declares for it and the public members of its public
    bases. *)

(** The special member functions that every C++ standard declares
    implicitly when the class body does not declare them. They are public.
    (From C++11 on there are move operations too; they are not declared
    implicitly for a class that declares a destructor or a copy
    operation.) *)
Inductive special := SDefaultCtor | SCopyCtor | SCopyAssign | SDtor.

#[global] Instance special_eq_dec : EqDecision special.
Proof. solve_decision. Defined.

(** A reference to the class [n], with or without [const]. *)
Definition refers_to (n : string) (t : type) : bool :=
  match t with
  | TRef t' => bool_decide (strip_const t' = TNamed n)
  | _ => false
  end.

(** A copy constructor of class [n]: a constructor that takes a reference
    to [n]. (There are no default arguments in this syntax.) *)
Definition is_copy_ctor (n : string) (f : fun_decl) : bool :=
  bool_decide (fd_kind f = Constructor)
  && match fd_params f with [t] => refers_to n t | _ => false end.

(** A copy assignment operator of class [n]: [operator=] that takes an [n]
    by reference or by value. *)
Definition is_copy_assign (n : string) (f : fun_decl) : bool :=
  bool_decide (fd_kind f = Method) && bool_decide (fd_name f = "operator=")
  && match fd_params f with
     | [t] => refers_to n t || bool_decide (strip_const t = TNamed n)
     | _ => false
     end.

(** Whether the class body keeps the compiler from declaring the special
    member itself: any constructor does so for the default constructor. *)
Definition suppresses (c : class_decl) (s : special) : bool :=
  let fs := member_functions c in
  match s with
  | SDefaultCtor => existsb (λ f, bool_decide (fd_kind f = Constructor)) fs
  | SCopyCtor => existsb (is_copy_ctor (cd_name c)) fs
  | SCopyAssign => existsb (is_copy_assign (cd_name c)) fs
  | SDtor => existsb (λ f, bool_decide (fd_kind f = Destructor)) fs
  end.

Definition implicit_members (c : class_decl) : list special :=
  filter (λ s, suppresses c s = false)
    [SDefaultCtor; SCopyCtor; SCopyAssign; SDtor].

(** The public members of the classes of the host, by class name, each
    with what it has from its own bases. The host's headers are not among
    the sources: this is a parameter. *)
Definition host_classes : Type := string → list member.

Definition member_name (m : member) : option string :=
  match m with
  | MFunction f => Some (fd_name f)
  | MData _ n | MClass n => Some n
  | MAccess _ => None
  end.

Definition declared_names (c : class_decl) : list string :=
  omap (λ am, member_name am.2) (members c).

(** What a derived class [c] shows of a member of a base: constructors and
    destructors are not taken over, and a name that [c] declares hides the
    same name of the base; [operator=] is always declared in [c], by the
    body or by the compiler. *)
Definition hidden_names (c : class_decl) : list string :=
  "operator=" :: declared_names c.

Definition inheritable (c : class_decl) (m : member) : bool :=
  match m with
  | MAccess _ => false
  | MFunction f =>
      bool_decide (fd_kind f = Method)
      && negb (bool_decide (fd_name f ∈ hidden_names c))
  | MData _ n | MClass n => negb (bool_decide (n ∈ hidden_names c))
  end.

(** A member of the public interface, with where it comes from. *)
Inductive interface_member :=
| Declared (m : member)
| Implicit (s : special)
| Inherited (base : string) (m : member).

#[global] Instance interface_member_eq_dec : EqDecision interface_member.
Proof. solve_decision. Defined.

(** Only a [public] base passes its public members on as public. *)
Definition inherited_members (host : host_classes) (c : class_decl)
  : list interface_member :=
  ab ← cd_bases c;
  if bool_decide (ab.1 = Public)
  then Inherited ab.2 <$> filter (λ m, inheritable c m = true) (host ab.2)
  else [].

Definition public_interface (host : host_classes) (c : class_decl)
  : list interface_member :=
  (Declared <$> declared_public_members c)
  ++ (Implicit <$> implicit_members c)
  ++ inherited_members host c.

(** A host without any class, and one in the way of NEST, whose
    [SLIModule] has a destructor, [init], [commandstring], [name] and
    [install]. Used to run the definitions. *)
Definition no_classes : host_classes := λ _, [].

Definition install_decl : fun_decl :=
  {| fd_kind := Method; fd_ret := Some TVoid;
     fd_name := "install";
     fd_params := [TRef (TNamed "std::ostream"); TPtr (TNamed "SLIInterpreter")];
     fd_const := false |}.

Definition nest_classes : host_classes :=
  λ n,
    if bool_decide (n = "SLIModule") then
      [ MFunction {| fd_kind := Destructor; fd_ret := None;
                     fd_name := "~SLIModule"; fd_params := [];
                     fd_const := false |};
        MFunction init_decl;
        MFunction commandstring_decl;
        MFunction name_decl;
        MFunction install_decl ]
    else [].

End Cxx.


(** ** Preprocessor lines *)

Module Cpp.

(** The directives the header uses, and a declaration between them. *)
Inductive line :=
| Ifndef (m : string)
| Define (m : string)
| Include (f : string)
| ClassDef (c : Cxx.class_decl)
| Endif.

Definition IAF_COND_DECO2014MODULE_H : string := "IAF_COND_DECO2014MODULE_H".

(** The header, line by line: the guard, the two host headers, the class. *)
Definition header : list line :=
  [ Ifndef IAF_COND_DECO2014MODULE_H;
    Define IAF_COND_DECO2014MODULE_H;
    Include "slimodule.h";
    Include "slifunction.h";
    ClassDef Cxx.iaf_cond_ampa_gaba_nmda_deco2014module;
    Endif ].

(** The classes a file declares, whatever the conditionals around them. *)
Definition classes_of (ls : list line) : list Cxx.class_decl :=
  omap (λ l, match l with ClassDef c => Some c | _ => None end) ls.

(** The macro an [#ifndef] at the top of a file tests, if it starts so. *)
Definition guard_of (ls : list line) : option string :=
  match ls with
  | Ifndef m :: Define m' :: _ => if bool_decide (m = m') then Some m else None
  | _ => None
  end.

(** A translation unit while it is preprocessed: the macros defined so far
    and the class declarations seen so far. *)
Record tu := {
  macros : gset string;
  decls : list Cxx.class_decl
}.

(** Host headers are not part of the sources: their effect on the
    translation unit is a parameter. *)
Definition host_headers : Type := string → tu → tu.

Definition define (m : string) (t : tu) : tu :=
  {| macros := {[ m ]} ∪ macros t; decls := decls t |}.

Definition declare (c : Cxx.class_decl) (t : tu) : tu :=
  {| macros := macros t; decls := decls t ++ [c] |}.

(** The stack of open conditionals: a line is live when every conditional
    around it holds. *)
Definition live (conds : list bool) : bool := forallb id conds.

Definition pp_line (host : host_headers) (s : tu * list bool) (l : line)
  : tu * list bool :=
  let '(t, conds) := s in
  match l with
  | Ifndef m => (t, bool_decide (m ∉ macros t) :: conds)
  | Endif => (t, tail conds)
  | Define m => if live conds then (define m t, conds) else s
  | Include f => if live conds then (host f t, conds) else s
  | ClassDef c => if live conds then (declare c t, conds) else s
  end.

Definition pp_lines (host : host_headers) (ls : list line)
  (s : tu * list bool) : tu * list bool :=
  foldl (pp_line host) s ls.

(** [#include] of a file of this repository, from the top level. *)
Definition include_file (host : host_headers) (ls : list line) (t : tu) : tu :=
  (pp_lines host ls (t, [])).1.

(** A host that behaves like guarded headers do: each defines a macro of
    its own and declares one class. Used to run the definitions. *)
Definition sample_host : host_headers :=
  λ f t,
    if bool_decide (f ∈ macros t) then t
    else declare {| Cxx.cd_key := Cxx.KClass; Cxx.cd_name := f;
                    Cxx.cd_bases := []; Cxx.cd_body := [] |}
           (define f t).

Definition empty_tu : tu := {| macros := ∅; decls := [] |}.

(** The files a file includes, in order. *)
Definition includes_of (ls : list line) : list string :=
  omap (λ l, match l with Include f => Some f | _ => None end) ls.

(** How often a translation unit declares a class of the given name. A
    class may be defined once only in a translation unit. *)
Definition declared_times (n : string) (t : tu) : nat :=
  length (filter (λ c, Cxx.cd_name c = n) (decls t)).

(** A host in the way of NEST, to run the definitions: [slimodule.h]
    declares [SLIModule] and [slifunction.h] declares [SLIFunction], each
    behind a guard of its own. *)
Definition guarded (g : string) (c : Cxx.class_decl) (t : tu) : tu :=
  if bool_decide (g ∈ macros t) then t else declare c (define g t).

Definition nest_host : host_headers :=
  λ f t,
    if bool_decide (f = "slimodule.h") then
      guarded "SLIMODULE_H"
        {| Cxx.cd_key := Cxx.KClass; Cxx.cd_name := "SLIModule";
           Cxx.cd_bases := []; Cxx.cd_body := [] |} t
    else if bool_decide (f = "slifunction.h") then
      guarded "SLIFUNCTION_H"
        {| Cxx.cd_key := Cxx.KClass; Cxx.cd_name := "SLIFunction";
           Cxx.cd_bases := []; Cxx.cd_body := [] |} t
    else t.

End Cpp.


(** ** Objects and operations *)

Module Runtime.

(** An object of the class. The class declares no data member, so the
    record has no field. *)
Record module_obj := Build_module_obj { }.

(** What the module asks of the host. *)
Inductive host_call :=
| RegisterLinkedModule
| RegisterModel (model : string).

#[global] Instance host_call_eq_dec : EqDecision host_call.
Proof. solve_decision. Defined.

Definition touches_kernel (c : host_call) : bool :=
  match c with RegisterModel _ => true | RegisterLinkedModule => false end.

Definition touches_loader (c : host_call) : bool :=
  match c with RegisterLinkedModule => true | RegisterModel _ => false end.

(** The host: a dynamic loader and a network kernel, each with the one
    entry point the module uses. Both belong to NEST. *)
Class HostAPI (Loader Kernel : Type) := {
  register_linked_module : module_obj → Loader → Loader;
  register_node_model : string → Kernel → Kernel
}.

Record host (Loader Kernel : Type) := Host {
  loader : Loader;
  kernel : Kernel
}.
Arguments Host {Loader Kernel}.
Arguments loader {Loader Kernel}.
Arguments kernel {Loader Kernel}.

(** The strings the implementation file fixes. *)
Record constants := {
  module_name : string;
  sli_file : string;
  model_name : string
}.

(** Values the member functions return. *)
Inductive value := VVoid | VString (s : string).

#[global] Instance value_eq_dec : EqDecision value.
Proof. solve_decision. Defined.

(** The result of a member function: the value returned, the object
    afterwards and the host calls made, in order. *)
Definition outcome : Type := value * module_obj * list host_call.

Section Bodies.

Context {SLIInterpreter : Type}.
Variable K : constants.

(** Modelled from the spec: the body of the constructor is in the
    implementation file, which is not among the sources. The spec has it
    register the module with the dynamic loader. *)
Definition constructor : module_obj * list host_call :=
  (Build_module_obj, [RegisterLinkedModule]).

(** Modelled from the spec: the body of the destructor is in the
    implementation file; the spec lists it as a trivial hook and gives it
    no effect. *)
Definition destructor (this : module_obj) : list host_call := [].

(** Modelled from the spec: the body of [init] is in the implementation
    file. The spec has it register one neuron model type with the host's
    network-construction subsystem. The interpreter pointer may be null. *)
Definition init (i : option SLIInterpreter) (this : module_obj) : outcome :=
  (VVoid, this, [RegisterModel (model_name K)]).

(** Modelled from the spec: the body of [name] is in the implementation
    file. The spec has it return a fixed identifying string. *)
Definition name (this : module_obj) : outcome :=
  (VString (module_name K), this, []).

(** Modelled from the spec: the body of [commandstring] is in the
    implementation file. The spec has it return the name of a companion
    script file. *)
Definition commandstring (this : module_obj) : outcome :=
  (VString (sli_file K), this, []).

(** The calls a host can make on a live module object. *)
Inductive op :=
| OInit (i : option SLIInterpreter)
| OName
| OCommandstring.

Definition is_init (o : op) : bool :=
  match o with OInit _ => true | _ => false end.

Definition exec (o : op) (this : module_obj) : outcome :=
  match o with
  | OInit i => init i this
  | OName => name this
  | OCommandstring => commandstring this
  end.

Context {Loader Kernel : Type} `{!HostAPI Loader Kernel}.

(** The host serving one call of the module [this]. *)
Definition serve (this : module_obj) (h : host Loader Kernel) (c : host_call)
  : host Loader Kernel :=
  match c with
  | RegisterLinkedModule =>
      Host (register_linked_module this (loader h)) (kernel h)
  | RegisterModel m =>
      Host (loader h) (register_node_model m (kernel h))
  end.

(** Module and host together. *)
Record system := System {
  object : module_obj;
  the_host : host Loader Kernel;
  returned : list value;
  trace : list host_call
}.

(** The host loads the module: the object is constructed. *)
Definition load (h : host Loader Kernel) : system :=
  let '(this, calls) := constructor in
  {| object := this; the_host := foldl (serve this) h calls;
     returned := []; trace := calls |}.

Definition step (s : system) (o : op) : system :=
  let '(v, this, calls) := exec o (object s) in
  {| object := this; the_host := foldl (serve this) (the_host s) calls;
     returned := returned s ++ [v]; trace := trace s ++ calls |}.

Definition run (ops : list op) (s : system) : system := foldl step s ops.

(** The host unloads the module: the object is destructed. *)
Definition unload (s : system) : host Loader Kernel * list host_call :=
  let calls := destructor (object s) in
  (foldl (serve (object s)) (the_host s) calls, trace s ++ calls).

End Bodies.

Arguments op : clear implicits.
Arguments system : clear implicits.

(** A host to run the definitions on: both registries are lists. *)
#[global] Instance list_host : HostAPI (list module_obj) (list string) := {|
  register_linked_module := cons;
  register_node_model := cons
|}.

Definition sample_constants : constants :=
  {| module_name := "iaf_cond_ampa_gaba_nmda_deco2014module";
     sli_file := "iaf_cond_ampa_gaba_nmda_deco2014module-init";
     model_name := "iaf_cond_ampa_gaba_nmda_deco2014" |}.

End Runtime.


(** * Properties *)

Import Cxx Cpp Runtime.

(** ** The class declaration *)

Abbreviation the_class := Cxx.iaf_cond_ampa_gaba_nmda_deco2014module.

(** Every member of the class is public: the first label comes before the
    first member. *)
Lemma members_all_public : Forall (λ am, am.1 = Public) (members the_class).
Proof. repeat constructor. Qed.

Lemma member_functions_the_class :
  member_functions the_class =
    [ctor_decl; dtor_decl; init_decl; name_decl; commandstring_decl].
Proof. reflexivity. Qed.

(** An object without fields has one value only. *)
Lemma module_obj_unique (o o' : module_obj) : o = o'.
Proof. by destruct o, o'. Qed.

(** The compiler declares the two copy operations for the class; the body
    declares a constructor and the destructor. *)
Lemma implicit_members_the_class :
  implicit_members the_class = [SCopyCtor; SCopyAssign].
Proof. reflexivity. Qed.

Lemma public_interface_the_class (host : host_classes) :
  public_interface host the_class =
    (Declared ∘ MFunction <$>
       [ctor_decl; dtor_decl; init_decl; name_decl; commandstring_decl])
    ++ [Implicit SCopyCtor; Implicit SCopyAssign]
    ++ (Inherited "SLIModule" <$>
          filter (λ m, inheritable the_class m = true) (host "SLIModule")).
Proof.
  unfold public_interface, inherited_members. cbn [cd_bases the_class].
  rewrite implicit_members_the_class. cbn. by rewrite app_nil_r.
Qed.

Lemma hidden_names_the_class n :
  n ∈ ["init"; "name"; "commandstring"; "operator="] →
  n ∈ hidden_names the_class.
Proof.
  intros Hn.
  repeat (apply elem_of_cons in Hn as [->|Hn];
          [apply (bool_decide_unpack _); by vm_compute|]).
  by apply elem_of_nil in Hn.
Qed.

(** What the class takes over from a base has none of the names it
    declares itself. *)
Lemma inheritable_not_hidden m :
  inheritable the_class m = true →
  member_name m ∉ (Some <$> ["init"; "name"; "commandstring"; "operator="]).
Proof.
  intros Hm Hin.
  apply list_elem_of_fmap in Hin as (n & Hname & Hn).
  apply hidden_names_the_class in Hn.
  destruct m as [a|f|t n'|n']; cbn in Hname; [done| | |];
    injection Hname as Hname; subst n; unfold inheritable in Hm;
    [apply andb_prop in Hm as [_ Hm]| |];
    by apply negb_true_iff, bool_decide_eq_false in Hm.
Qed.

(** C1, as the claim has it, fails: whatever the host's classes are, the
    public interface of the class has a member that is not one of the five
    member functions of the class body, the copy constructor that the
    compiler declares. *)
Lemma public_interface_not_only_declared :
  ¬ ∃ host : host_classes,
      ∀ m, m ∈ public_interface host the_class →
           m ∈ Declared ∘ MFunction <$>
                 [ctor_decl; dtor_decl; init_decl; name_decl; commandstring_decl].
Proof.
  intros [host Hall].
  assert (Hin : Implicit SCopyCtor ∈ public_interface host the_class).
  { rewrite public_interface_the_class.
    apply elem_of_app. right. apply elem_of_cons. by left. }
  apply Hall in Hin. cbn in Hin.
  repeat (apply elem_of_cons in Hin as [Heq|Hin]; [discriminate Heq|]).
  by apply elem_of_nil in Hin.
Qed.

(** C1, amended: the class body declares five member functions, all
    public, the constructor, the destructor, [init] and the [const]
    accessors [name] and [commandstring], and no data member and no nested
    class. The public interface of the class is these five, the copy
    constructor and the copy assignment operator that the compiler declares,
    and the public members of [SLIModule] that the class does not hide;
    nothing else. In the model of the bodies the constructor registers the
    module with the dynamic loader, [init] registers a neuron model with the
    network kernel, and [name] and [commandstring] return the module's name
    and the name of its script. *)
Theorem public_interface_with_implicit_and_inherited :
  declared_public_members the_class =
    MFunction <$> [ctor_decl; dtor_decl; init_decl; name_decl; commandstring_decl]
  ∧ member_functions the_class = declared_public_functions the_class
  ∧ fd_name <$> filter (λ f, fd_const f = true) (declared_public_functions the_class) =
      ["name"; "commandstring"]
  ∧ data_members the_class = []
  ∧ nested_classes the_class = []
  ∧ implicit_members the_class = [SCopyCtor; SCopyAssign]
  ∧ (∀ host : host_classes,
       public_interface host the_class =
         (Declared ∘ MFunction <$>
            [ctor_decl; dtor_decl; init_decl; name_decl; commandstring_decl])
         ++ [Implicit SCopyCtor; Implicit SCopyAssign]
         ++ (Inherited "SLIModule" <$>
               filter (λ m, inheritable the_class m = true) (host "SLIModule")))
  ∧ (∀ m, inheritable the_class m = true →
          member_name m ∉
            (Some <$> ["init"; "name"; "commandstring"; "operator="]))
  ∧ (∀ f, inheritable the_class (MFunction f) = true → fd_kind f = Method)
  ∧ constructor.2 = [RegisterLinkedModule]
  ∧ (∀ (I : Type) (K : constants) (i : option I) (this : module_obj),
       init K i this = (VVoid, this, [RegisterModel (model_name K)]))
  ∧ ∀ (K : constants) (this : module_obj),
      name K this = (VString (module_name K), this, [])
      ∧ commandstring K this = (VString (sli_file K), this, []).
Proof.
  split; [done|]. split; [done|]. split; [done|].
  split; [done|]. split; [done|]. split; [done|].
  split; [apply public_interface_the_class|].
  split; [apply inheritable_not_hidden|].
  split; [|by repeat split].
  intros f Hf. cbn in Hf. apply andb_prop in Hf as [Hf _].
  by apply bool_decide_eq_true in Hf.
Qed.

(** With a base in the way of NEST the class also shows [install]. *)
Example public_interface_nest :
  public_interface nest_classes the_class =
    (Declared ∘ MFunction <$>
       [ctor_decl; dtor_decl; init_decl; name_decl; commandstring_decl])
    ++ [Implicit SCopyCtor; Implicit SCopyAssign;
        Inherited "SLIModule" (MFunction install_decl)].
Proof. vm_compute. reflexivity. Qed.

(** C5: the header declares one class, [class
    iaf_cond_ampa_gaba_nmda_deco2014module], and that class has exactly one
    base, [SLIModule], inherited publicly. *)
Theorem derives_from_SLIModule :
  classes_of header = [the_class]
  ∧ cd_key the_class = KClass
  ∧ cd_bases the_class = [(Public, "SLIModule")].
Proof. by repeat split. Qed.

(** C7: no member function of the class has a return type through which
    it could report failure ([init] is [void], the accessors return a
    [std::string] by value, constructor and destructor return nothing), and
    none takes an argument besides the interpreter pointer of [init]; every
    operation of the model gives an outcome. *)
Theorem no_error_path :
  Forall (λ f, reports_failure f = false) (member_functions the_class)
  ∧ fd_ret <$> member_functions the_class =
      [None; None; Some TVoid;
       Some (TConst (TNamed "std::string")); Some (TConst (TNamed "std::string"))]
  ∧ Forall (λ f, fd_params f = [] ∨ f = init_decl) (member_functions the_class)
  ∧ ∀ (I : Type) (K : constants) (o : op I) (this : module_obj),
      ∃ v calls, exec K o this = (v, this, calls)
                 ∧ (v = VVoid ∨ ∃ s, v = VString s).
Proof.
  split; [by repeat constructor|].
  split; [done|].
  split.
  { repeat (apply List.Forall_cons; [first [by left | by right]|]).
    apply List.Forall_nil. }
  intros I K [i| |] this; do 2 eexists; (split; [reflexivity|]); eauto.
Qed.

(** C8: the class declares no data member and no nested class, so an
    object has one possible value; whatever a member function does, the
    object is the same afterwards, and a run of any operations on a system
    leaves its object as it was. *)
Theorem object_has_no_state :
  data_members the_class = []
  ∧ nested_classes the_class = []
  ∧ (∀ o o' : module_obj, o = o')
  ∧ (∀ (A : Type) (body : module_obj → A * module_obj) (this : module_obj),
       (body this).2 = this)
  ∧ ∀ (I L Kn : Type) (api : HostAPI L Kn) (K : constants)
      (ops : list (op I)) (s : system L Kn),
      object (run K ops s) = object s.
Proof.
  split; [done|]. split; [done|].
  split; [apply module_obj_unique|].
  split; intros; apply module_obj_unique.
Qed.

(** C9: [name] and [commandstring] are the [const] member functions of the
    class ([init] is not), and a call of either leaves the object as it
    was, whatever its body is. *)
Theorem accessors_are_const :
  fd_name <$> filter (λ f, fd_const f = true) (member_functions the_class) =
    ["name"; "commandstring"]
  ∧ fd_const name_decl = true
  ∧ fd_const commandstring_decl = true
  ∧ (∀ (body : module_obj → outcome) (this : module_obj),
       (body this).1.2 = this)
  ∧ ∀ (K : constants) (this : module_obj),
      (name K this).1.2 = this ∧ (commandstring K this).1.2 = this.
Proof.
  split; [done|]. split; [done|]. split; [done|].
  split; [intros; apply module_obj_unique|].
  by intros K this.
Qed.


(** ** The definitions on concrete inputs *)

(** The second [public:] label of the class has nothing after it; a member
    before the first label would have been private. *)
Example with_access_labels :
  with_access Private
    [MData TVoid "x"; MAccess Public; MFunction init_decl; MAccess Public] =
    [(Private, MData TVoid "x"); (Public, MFunction init_decl)].
Proof. reflexivity. Qed.

(** One inclusion into an empty translation unit: the two host headers,
    then the class. *)
Example include_once :
  cd_name <$> decls (include_file sample_host header empty_tu) =
    ["slimodule.h"; "slifunction.h"; "iaf_cond_ampa_gaba_nmda_deco2014module"].
Proof. vm_compute. reflexivity. Qed.

Example include_three_times :
  cd_name <$> decls (Nat.iter 3 (include_file sample_host header) empty_tu) =
    ["slimodule.h"; "slifunction.h"; "iaf_cond_ampa_gaba_nmda_deco2014module"].
Proof. vm_compute. reflexivity. Qed.

(** With the guard macro already defined nothing of the header is seen. *)
Example include_guard_defined :
  decls (include_file sample_host header
           (define IAF_COND_DECO2014MODULE_H empty_tu)) = [].
Proof. vm_compute. reflexivity. Qed.

(** Load, then [name], [init] on a null interpreter, [commandstring]. *)
Example lifecycle_run :
  let s := run (SLIInterpreter:=nat) sample_constants
             [OName; OInit None; OCommandstring] (load (Host [] [])) in
  the_host s = Host [Build_module_obj] ["iaf_cond_ampa_gaba_nmda_deco2014"]
  ∧ returned s =
      [VString "iaf_cond_ampa_gaba_nmda_deco2014module"; VVoid;
       VString "iaf_cond_ampa_gaba_nmda_deco2014module-init"]
  ∧ trace s =
      [RegisterLinkedModule; RegisterModel "iaf_cond_ampa_gaba_nmda_deco2014"].
Proof. by repeat split. Qed.


(** ** Operations on a module object *)

Section Operations.

Context {SLIInterpreter Loader Kernel : Type} `{!HostAPI Loader Kernel}.
Variable K : constants.

Implicit Types (s : system Loader Kernel) (o : op SLIInterpreter).
Implicit Types (ops : list (op SLIInterpreter)).

Lemma step_init s (i : option SLIInterpreter) :
  step K s (OInit i) =
    {| object := object s;
       the_host := Host (loader (the_host s))
                     (register_node_model (model_name K) (kernel (the_host s)));
       returned := returned s ++ [VVoid];
       trace := trace s ++ [RegisterModel (model_name K)] |}.
Proof. reflexivity. Qed.

Lemma step_not_init s o :
  is_init o = false →
  the_host (step K s o) = the_host s ∧ trace (step K s o) = trace s.
Proof.
  destruct o as [i| |]; [discriminate| |]; intros _; cbn;
    by rewrite app_nil_r.
Qed.

Lemma run_snoc ops o s : run K (ops ++ [o]) s = step K (run K ops s) o.
Proof. unfold run. by rewrite foldl_app. Qed.

Lemma run_not_init ops s :
  Forall (λ o, is_init o = false) ops →
  the_host (run K ops s) = the_host s ∧ trace (run K ops s) = trace s.
Proof.
  intros Hops. revert s.
  induction Hops as [|o ops Ho _ IH]; intros s; [done|].
  change (run K (o :: ops) s) with (run K ops (step K s o)).
  destruct (IH (step K s o)) as [-> ->].
  by apply step_not_init.
Qed.

Lemma exec_kernel_only_init o (this : module_obj) c :
  c ∈ (exec K o this).2 → touches_kernel c = true → is_init o = true.
Proof.
  destruct o as [i| |]; cbn; [done| |]; intros Hc; by apply elem_of_nil in Hc.
Qed.

End Operations.

(** C2: [init] is declared [void]; a call of it, with any interpreter
    pointer and in any state of the system, returns no value, makes one host
    call, the registration of the neuron model with the network kernel, and
    does nothing to the dynamic loader. *)
Theorem init_registers_one_model :
  fd_ret init_decl = Some TVoid
  ∧ ∀ (I L Kn : Type) (api : HostAPI L Kn) (K : constants)
      (i : option I) (s : system L Kn),
      (init K i (object s)).1.1 = VVoid
      ∧ (init K i (object s)).2 = [RegisterModel (model_name K)]
      ∧ length (filter (λ c, touches_kernel c = true) (init K i (object s)).2) = 1
      ∧ filter (λ c, touches_loader c = true) (init K i (object s)).2 = []
      ∧ kernel (the_host (step K s (OInit i))) =
          register_node_model (model_name K) (kernel (the_host s))
      ∧ loader (the_host (step K s (OInit i))) = loader (the_host s)
      ∧ trace (step K s (OInit i)) = trace s ++ [RegisterModel (model_name K)].
Proof. split; [done|]. intros. by repeat split. Qed.

(** C3: [name] returns the same string, the module's name, on every
    object and after any operations on it, and makes no host call. *)
Theorem name_is_fixed :
  ∀ (I L Kn : Type) (api : HostAPI L Kn) (K : constants)
    (ops1 ops2 : list (op I)) (s1 s2 : system L Kn),
    (name K (object (run K ops1 s1))).1.1 = (name K (object (run K ops2 s2))).1.1
    ∧ returned (step K (run K ops1 s1) (@OName I)) =
        returned (run K ops1 s1) ++ [VString (module_name K)]
    ∧ (name K (object (run K ops1 s1))).2 = [].
Proof. intros. by repeat split. Qed.

(** C4: [commandstring] returns the same string, the name of the module's
    script file, on every object and after any operations on it; it is
    declared to return a [std::string] and makes no host call. *)
Theorem commandstring_is_fixed :
  fd_ret commandstring_decl = Some (TConst (TNamed "std::string"))
  ∧ ∀ (I L Kn : Type) (api : HostAPI L Kn) (K : constants)
      (ops1 ops2 : list (op I)) (s1 s2 : system L Kn),
      (commandstring K (object (run K ops1 s1))).1.1 =
        (commandstring K (object (run K ops2 s2))).1.1
      ∧ returned (step K (run K ops1 s1) (@OCommandstring I)) =
          returned (run K ops1 s1) ++ [VString (sli_file K)]
      ∧ (commandstring K (object (run K ops1 s1))).2 = [].
Proof. split; [done|]. intros. by repeat split. Qed.

(** C6: the constructor makes one host call, the registration of the
    module with the dynamic loader; of the operations only [init] makes a
    call to the network kernel. So after the module is loaded and as long as
    [init] has not been called, the kernel is as it was before the load and
    no call to it is in the trace; the first [init] then registers the
    model; unloading makes no call. *)
Theorem kernel_untouched_before_init :
  ∀ (I L Kn : Type) (api : HostAPI L Kn) (K : constants) (h : host L Kn)
    (pre : list (op I)),
    Forall (λ o, is_init o = false) pre →
    constructor.2 = [RegisterLinkedModule]
    ∧ the_host (load h) =
        Host (register_linked_module constructor.1 (loader h)) (kernel h)
    ∧ (∀ (o : op I) (this : module_obj) c,
         c ∈ (exec K o this).2 → touches_kernel c = true → is_init o = true)
    ∧ kernel (the_host (run K pre (load h))) = kernel h
    ∧ filter (λ c, touches_kernel c = true) (trace (run K pre (load h))) = []
    ∧ (∀ i : option I, kernel (the_host (step K (run K pre (load h)) (OInit i))) =
            register_node_model (model_name K) (kernel h))
    ∧ (unload (run K pre (load h))).1 = the_host (load h).
Proof.
  intros I L Kn api K h pre Hpre.
  destruct (run_not_init K pre (load h) Hpre) as [Hhost Htrace].
  split; [done|]. split; [done|].
  split; [apply exec_kernel_only_init|].
  split; [by rewrite Hhost|].
  split; [by rewrite Htrace|].
  split; [intros i; rewrite step_init; cbn [the_host kernel]; by rewrite Hhost|].
  unfold unload, destructor. cbn [foldl fst]. exact Hhost.
Qed.

Lemma kernel_untouched_before_init_witness :
  kernel (the_host (run (SLIInterpreter:=nat) sample_constants
                      [OName; OCommandstring; OName]
                      (load (Host [] ["iaf_cond_alpha"])))) =
    ["iaf_cond_alpha"].
Proof.
  apply (kernel_untouched_before_init nat _ _ list_host sample_constants
           (Host [] ["iaf_cond_alpha"]) [OName; OCommandstring; OName]).
  repeat constructor.
Defined.


(** ** The include guard *)

Section Guard.

Variable host : host_headers.

(** Host headers do not undefine the guard macro of this header. *)
Hypothesis host_keeps_guard :
  ∀ f t, IAF_COND_DECO2014MODULE_H ∈ macros t →
         IAF_COND_DECO2014MODULE_H ∈ macros (host f t).

Lemma include_skipped t :
  IAF_COND_DECO2014MODULE_H ∈ macros t → include_file host header t = t.
Proof.
  intros Hin. unfold include_file, pp_lines, header. cbn.
  rewrite bool_decide_eq_false_2; [done|]. by intros Hnot.
Qed.

Lemma include_defines_guard t :
  IAF_COND_DECO2014MODULE_H ∈ macros (include_file host header t).
Proof.
  destruct (decide (IAF_COND_DECO2014MODULE_H ∈ macros t)) as [Hin|Hout].
  - by rewrite include_skipped.
  - unfold include_file, pp_lines, header. cbn.
    rewrite bool_decide_eq_true_2; [|done]. cbn.
    do 2 apply host_keeps_guard. cbn. set_solver.
Qed.

Lemma include_twice t :
  include_file host header (include_file host header t) =
    include_file host header t.
Proof. apply include_skipped, include_defines_guard. Qed.

End Guard.

(** C10: the header starts by testing and defining
    [IAF_COND_DECO2014MODULE_H] and ends the conditional on its last line.
    When the host headers leave that macro defined, including the header
    [n + 1] times in a translation unit gives the translation unit that one
    inclusion gives: the same declarations and the same macros. *)
Theorem include_idempotent :
  ∀ (host : host_headers),
    (∀ f t, IAF_COND_DECO2014MODULE_H ∈ macros t →
            IAF_COND_DECO2014MODULE_H ∈ macros (host f t)) →
    guard_of header = Some IAF_COND_DECO2014MODULE_H
    ∧ last header = Some Endif
    ∧ ∀ (n : nat) (t : tu),
        Nat.iter (S n) (include_file host header) t = include_file host header t.
Proof.
  intros host Hhost. split; [done|]. split; [done|].
  induction n as [|n IH]; intros t; [done|].
  change (Nat.iter (S (S n)) (include_file host header) t)
    with (include_file host header (Nat.iter (S n) (include_file host header) t)).
  rewrite IH. by apply include_twice.
Qed.

Lemma sample_host_keeps_guard f t :
  IAF_COND_DECO2014MODULE_H ∈ macros t →
  IAF_COND_DECO2014MODULE_H ∈ macros (sample_host f t).
Proof.
  intros Hin. unfold sample_host. case_bool_decide; [done|]. cbn. set_solver.
Defined.

Lemma include_idempotent_witness :
  Nat.iter 3 (include_file sample_host header) empty_tu =
    include_file sample_host header empty_tu.
Proof.
  apply (include_idempotent sample_host sample_host_keeps_guard).
Defined.



(** ** More on the include guard *)

Section Inclusion.

Variable host : host_headers.

Implicit Types (t : tu) (conds : list bool).

(** The first inclusion: guard, host headers in order, class. *)
Lemma include_first t :
  IAF_COND_DECO2014MODULE_H ∉ macros t →
  include_file host header t =
    declare the_class
      (host "slifunction.h"
         (host "slimodule.h" (define IAF_COND_DECO2014MODULE_H t))).
Proof.
  intros Hout. unfold include_file, pp_lines, header. cbn.
  by rewrite bool_decide_eq_true_2.
Qed.

Lemma include_iter_skipped n t :
  IAF_COND_DECO2014MODULE_H ∈ macros t →
  Nat.iter n (include_file host header) t = t.
Proof.
  intros Hin. induction n as [|n IH]; [done|].
  rewrite Nat.iter_succ, IH. by apply include_skipped.
Qed.

Lemma declared_times_define n m t :
  declared_times n (define m t) = declared_times n t.
Proof. reflexivity. Qed.

Lemma declared_times_declare n c t :
  declared_times n (declare c t) =
    declared_times n t + (if decide (cd_name c = n) then 1 else 0).
Proof.
  unfold declared_times, declare. cbn.
  rewrite filter_app, length_app. f_equal.
  rewrite filter_cons, filter_nil. by destruct (decide (cd_name c = n)).
Qed.

End Inclusion.

(** X1: with [IAF_COND_DECO2014MODULE_H] already defined, by whatever
    defined it, any number of inclusions of the header leave the translation
    unit as it is, whatever the host headers would do: the class is not
    declared and the host headers are not read. *)
Theorem guard_defined_skips_header :
  ∀ (host : host_headers) (n : nat) (t : tu),
    IAF_COND_DECO2014MODULE_H ∈ macros t →
    Nat.iter n (include_file host header) t = t.
Proof. intros host n t Hin. by apply include_iter_skipped. Qed.

Lemma guard_defined_skips_header_witness :
  Nat.iter 2 (include_file nest_host header)
    (define IAF_COND_DECO2014MODULE_H empty_tu) =
    define IAF_COND_DECO2014MODULE_H empty_tu.
Proof.
  apply (guard_defined_skips_header nest_host 2
           (define IAF_COND_DECO2014MODULE_H empty_tu)).
  cbn. set_solver.
Defined.

(** X2: the [#ifndef] of the header is closed by its [#endif]: whatever
    conditionals are open where the header is read, the same are open after
    it, for any translation unit and host headers. *)
Theorem header_conditionals_balanced :
  ∀ (host : host_headers) (t : tu) (conds : list bool),
    (pp_lines host header (t, conds)).2 = conds.
Proof.
  intros host t conds. unfold pp_lines, header. cbn [foldl].
  unfold pp_line at 6, live. cbn [forallb id].
  destruct (bool_decide (IAF_COND_DECO2014MODULE_H ∉ macros t)),
    (forallb id conds) eqn:Hlive;
    repeat (unfold pp_line, live; cbn [forallb id andb fst snd tail];
            rewrite ?Hlive); reflexivity.
Qed.

(** X3: a translation unit in which the guard macro is not defined gets
    one more declaration of a class of this name from any number [n + 1] of
    inclusions of the header, not [n + 1] more, when the host headers leave
    the guard macro defined and declare no class of this name themselves. *)
Theorem class_declared_once :
  ∀ (host : host_headers) (n : nat) (t : tu),
    (∀ f t', IAF_COND_DECO2014MODULE_H ∈ macros t' →
             IAF_COND_DECO2014MODULE_H ∈ macros (host f t')) →
    (∀ f t', f ∈ includes_of header →
             declared_times (cd_name the_class) (host f t') =
               declared_times (cd_name the_class) t') →
    IAF_COND_DECO2014MODULE_H ∉ macros t →
    declared_times (cd_name the_class)
      (Nat.iter (S n) (include_file host header) t) =
      S (declared_times (cd_name the_class) t).
Proof.
  intros host n t Hkeep Hcount Hout.
  rewrite Nat.iter_succ_r.
  rewrite include_iter_skipped by by apply include_defines_guard.
  rewrite include_first by done.
  rewrite declared_times_declare.
  rewrite !Hcount by (cbn; set_solver).
  rewrite declared_times_define.
  rewrite decide_True by done. lia.
Qed.

Lemma sample_host_declares_other f t :
  f ∈ includes_of header →
  declared_times (cd_name the_class) (sample_host f t) =
    declared_times (cd_name the_class) t.
Proof.
  intros Hf. unfold sample_host. case_bool_decide; [done|].
  rewrite declared_times_declare, declared_times_define.
  rewrite decide_False; [lia|].
  cbn in Hf. apply elem_of_cons in Hf as [->|Hf]; [done|].
  apply list_elem_of_singleton in Hf as ->. done.
Defined.

Lemma class_declared_once_witness :
  declared_times (cd_name the_class)
    (Nat.iter 3 (include_file sample_host header) empty_tu) = 1.
Proof.
  apply (class_declared_once sample_host 2 empty_tu
           sample_host_keeps_guard sample_host_declares_other).
  cbn. set_solver.
Defined.

(** X4: the first inclusion of the header puts the class last among the
    declarations, and each base class of the class is declared before it,
    when [slimodule.h] declares [SLIModule] and [slifunction.h] takes none of
    the declarations away. *)
Theorem bases_declared_before_class :
  ∀ (host : host_headers) (t : tu),
    IAF_COND_DECO2014MODULE_H ∉ macros t →
    "SLIModule" ∈
      cd_name <$>
        decls (host "slimodule.h" (define IAF_COND_DECO2014MODULE_H t)) →
    decls (host "slimodule.h" (define IAF_COND_DECO2014MODULE_H t)) ⊆
      decls (host "slifunction.h"
               (host "slimodule.h" (define IAF_COND_DECO2014MODULE_H t))) →
    ∃ before,
      decls (include_file host header t) = before ++ [the_class]
      ∧ Forall (λ b, b.2 ∈ cd_name <$> before) (cd_bases the_class).
Proof.
  intros host t Hout Hbase Hsub.
  rewrite include_first by done.
  eexists. split; [reflexivity|].
  apply Forall_singleton. cbn [snd].
  apply list_elem_of_fmap in Hbase as (c & Hname & Hc).
  apply list_elem_of_fmap. exists c. split; [done|]. by apply Hsub.
Qed.

Lemma bases_declared_before_class_witness :
  ∃ before,
    decls (include_file nest_host header empty_tu) = before ++ [the_class]
    ∧ Forall (λ b, b.2 ∈ cd_name <$> before) (cd_bases the_class).
Proof.
  apply (bases_declared_before_class nest_host empty_tu).
  - cbn. set_solver.
  - vm_compute. apply elem_of_cons. by left.
  - vm_compute. intros c Hc.
    inversion Hc as [|? ? ? Hnil]; subst; [constructor|inversion Hnil].
Defined.
